(** * Shallow embedding of .github/scripts/post_to_reddit.py

    The script reads eight environment variables, checks the four Reddit
    credentials, derives a post title and body from the release metadata,
    and submits one post to r/TodayRSS through praw.  We model:
    - the environment as a partial map from names to strings
      ([os.environ.get] returns [None] for an unset variable);
    - Python truthiness of [str | None] values;
    - the praw client as an opaque service, given as three response
      functions (client construction, submission, and the lazy fetch of
      [submission.permalink]) that may raise a [PRAWException] or some
      other [Exception];
    - [main] in a small exception-and-state monad whose state records the
      lines printed to stdout and the calls made to the service;
    - the process exit status: [0] when [main] returns normally, [n] for
      [sys.exit(n)]. *)

From Stdlib Require Import String Ascii List Bool Lia.
Import ListNotations.
Open Scope string_scope.

(** ** Strings *)

Definition nl : string := String (ascii_of_nat 10) EmptyString.

(** Python truthiness of an [Optional[str]]: [None] and [""] are falsy. *)
Definition truthy (o : option string) : bool :=
  match o with
  | None => false
  | Some s => negb (String.eqb s "")
  end.

(** Truthiness of a [str]. *)
Definition str_truthy (s : string) : bool := negb (String.eqb s "").

(** Python's [all] over a list of [Optional[str]]. *)
Definition all_truthy (l : list (option string)) : bool :=
  forallb truthy l.

(** ** Environment *)

Definition environ := string -> option string.

(** [os.environ.get(key, default)] *)
Definition environ_get_default (env : environ) (key default : string) : string :=
  match env key with
  | Some v => v
  | None => default
  end.

(** ** Service (praw) *)

(** Errors the service may raise: a [praw.exceptions.PRAWException] or any
    other [Exception] (network errors, prawcore errors, ...). *)
Inductive service_error :=
| PRAWError (msg : string)
| OtherError (msg : string).

(** The calls the script makes to the service, with the service's answer. *)
Inductive call :=
| RedditInit (client_id client_secret username password user_agent : string)
             (answer : option service_error)
| Submit (subreddit title selftext : string)
         (answer : service_error + string)
| Permalink (submission_id : string) (answer : service_error + string).

Record service := {
  (** [praw.Reddit(client_id=..., ..., user_agent=...)]: [None] on success *)
  reddit_init : string -> string -> string -> string -> string -> option service_error;
  (** [reddit.subreddit(sr).submit(title=..., selftext=...)]: the id of
      the new (lazy) [Submission] on success *)
  subreddit_submit : string -> string -> string -> service_error + string;
  (** [submission.permalink]: reading an attribute of a lazy praw object
      fetches it from Reddit, which may raise *)
  submission_permalink : string -> service_error + string
}.

(** ** Monad: exceptions and state *)

Inductive exn :=
| PRAWException (msg : string)
| OtherException (msg : string)
| SystemExit (code : nat).

Definition exn_of_service_error (e : service_error) : exn :=
  match e with
  | PRAWError m => PRAWException m
  | OtherError m => OtherException m
  end.

(** [str(e)] *)
Definition exn_message (e : exn) : string :=
  match e with
  | PRAWException m | OtherException m => m
  | SystemExit _ => ""
  end.

Record world := mkWorld {
  stdout : list string;   (** printed lines, in order *)
  calls : list call       (** service calls, in order *)
}.

Definition M (A : Type) := world -> (A + exn) * world.

Definition ret {A} (a : A) : M A := fun w => (inl a, w).

Definition bind {A B} (m : M A) (f : A -> M B) : M B :=
  fun w => match m w with
           | (inl a, w') => f a w'
           | (inr e, w') => (inr e, w')
           end.

Notation "x <- m ;; k" := (bind m (fun x => k))
  (at level 61, m at next level, right associativity).
Notation "m ;;; k" := (bind m (fun _ => k))
  (at level 61, right associativity).

Definition raise {A} (e : exn) : M A := fun w => (inr e, w).

Definition print (line : string) : M unit :=
  fun w => (inl tt, mkWorld (stdout w ++ [line]) (calls w)).

Definition sys_exit {A} (code : nat) : M A := raise (SystemExit code).

(** [try: body except h] where [h] returns [None] for exceptions it does
    not catch (they propagate unchanged). *)
Definition try_except {A} (body : M A) (h : exn -> option (M A)) : M A :=
  fun w => match body w with
           | (inl a, w') => (inl a, w')
           | (inr e, w') =>
               match h e with
               | Some k => k w'
               | None => (inr e, w')
               end
           end.

Definition record_call (c : call) : M unit :=
  fun w => (inl tt, mkWorld (stdout w) (calls w ++ [c])).

Section Script.

Variable svc : service.

(** [praw.Reddit(...)] *)
Definition praw_Reddit (cid csec user pw agent : string) : M unit :=
  let r := reddit_init svc cid csec user pw agent in
  record_call (RedditInit cid csec user pw agent r) ;;;
  match r with
  | None => ret tt
  | Some e => raise (exn_of_service_error e)
  end.

(** [reddit.subreddit(sr).submit(title=..., selftext=...)] *)
Definition submit (sr title selftext : string) : M string :=
  let r := subreddit_submit svc sr title selftext in
  record_call (Submit sr title selftext r) ;;;
  match r with
  | inr submission => ret submission
  | inl e => raise (exn_of_service_error e)
  end.

(** [submission.permalink] *)
Definition read_permalink (submission : string) : M string :=
  let r := submission_permalink svc submission in
  record_call (Permalink submission r) ;;;
  match r with
  | inr permalink => ret permalink
  | inl e => raise (exn_of_service_error e)
  end.

End Script.

(** ** Title and body (lines 38-47) *)

Definition post_title_of (release_tag release_name : string) : string :=
  if str_truthy release_name && negb (String.eqb release_name release_tag)
  then release_name ++ " (" ++ release_tag ++ ")"
  else "Today RSS Reader " ++ release_tag ++ " Released!".

Definition footer : string :=
  "*This post was automatically generated from the GitHub release*".

Definition post_body_of (release_body release_url : string) : string :=
  let post_body := release_body ++ nl ++ nl in
  let post_body := post_body ++ "[View Release on GitHub](" ++ release_url ++ ")" ++ nl ++ nl in
  let post_body := post_body ++ "---" ++ nl in
  post_body ++ footer.

(** ** [main] *)

Definition missing_msg1 : string := "Error: Missing required Reddit API credentials".
Definition missing_msg2 : string :=
  "Please ensure REDDIT_CLIENT_ID, REDDIT_CLIENT_SECRET, REDDIT_USERNAME, and REDDIT_PASSWORD are set".

Definition opt_str (o : option string) : string :=
  match o with Some s => s | None => "None" end.

(** Lines 17-20: the release fields with their defaults. *)
Definition read_release_info (env : environ) : string * string * string * string :=
  (environ_get_default env "RELEASE_TAG" "Unknown Version",
   environ_get_default env "RELEASE_NAME" "New Release",
   environ_get_default env "RELEASE_BODY" "",
   environ_get_default env "RELEASE_URL" "").

Definition release_tag (env : environ) : string :=
  let '(t, _, _, _) := read_release_info env in t.
Definition release_name (env : environ) : string :=
  let '(_, n, _, _) := read_release_info env in n.
Definition release_body (env : environ) : string :=
  let '(_, _, b, _) := read_release_info env in b.
Definition release_url (env : environ) : string :=
  let '(_, _, _, u) := read_release_info env in u.

(** Line 23: [all([client_id, client_secret, username, password])] *)
Definition credentials_present (env : environ) : bool :=
  all_truthy [env "REDDIT_CLIENT_ID"; env "REDDIT_CLIENT_SECRET";
              env "REDDIT_USERNAME"; env "REDDIT_PASSWORD"].

Definition main (svc : service) (env : environ) : M unit :=
  let client_id := env "REDDIT_CLIENT_ID" in
  let client_secret := env "REDDIT_CLIENT_SECRET" in
  let username := env "REDDIT_USERNAME" in
  let password := env "REDDIT_PASSWORD" in
  let '(release_tag, release_name, release_body, release_url) := read_release_info env in
  (if negb (all_truthy [client_id; client_secret; username; password])
   then print missing_msg1 ;;; print missing_msg2 ;;; sys_exit 1
   else ret tt) ;;;
  try_except
    (praw_Reddit svc (opt_str client_id) (opt_str client_secret)
       (opt_str username) (opt_str password)
       ("GitHub Actions Release Bot for Today RSS Reader by u/" ++ opt_str username) ;;;
     let post_title := post_title_of release_tag release_name in
     let post_body := post_body_of release_body release_url in
     submission <- submit svc "TodayRSS" post_title post_body ;;
     print "✅ Successfully posted to r/TodayRSS!" ;;;
     print ("📝 Post title: " ++ post_title) ;;;
     permalink <- read_permalink svc submission ;;
     print ("🔗 Post URL: https://reddit.com" ++ permalink))
    (fun e => match e with
              | PRAWException _ =>
                  Some (print ("❌ Reddit API error: " ++ exn_message e) ;;; sys_exit 1)
              | OtherException _ =>
                  Some (print ("❌ Unexpected error: " ++ exn_message e) ;;; sys_exit 1)
              | SystemExit _ => None
              end).

(** Process exit status of [python3 post_to_reddit.py]: [0] when [main]
    returns, the code of [sys.exit], [1] for an uncaught exception. *)
Definition exit_status (r : (unit + exn) * world) : nat :=
  match fst r with
  | inl _ => 0
  | inr (SystemExit n) => n
  | inr _ => 1
  end.

Definition run (svc : service) (env : environ) : nat * world :=
  let r := main svc env (mkWorld [] []) in
  (exit_status r, snd r).

(** A concrete environment and service for testing. *)
Definition env_of (l : list (string * string)) : environ :=
  fun k => match find (fun p => String.eqb (fst p) k) l with
           | Some (_, v) => Some v
           | None => None
           end.

Definition creds : list (string * string) :=
  [("REDDIT_CLIENT_ID", "id"); ("REDDIT_CLIENT_SECRET", "sec");
   ("REDDIT_USERNAME", "bot"); ("REDDIT_PASSWORD", "pw")].

Definition ok_service : service :=
  {| reddit_init := fun _ _ _ _ _ => None;
     subreddit_submit := fun _ _ _ => inr "abc";
     submission_permalink := fun _ => inr "/r/TodayRSS/comments/abc/" |}.

(** ** Closed form of a run

    [run] unfolded into its five possible outcomes: missing credentials,
    client construction raising, submission raising, the permalink fetch
    raising after the two first success lines, success. *)

Definition handler_line (e : service_error) : string :=
  match e with
  | PRAWError m => "❌ Reddit API error: " ++ m
  | OtherError m => "❌ Unexpected error: " ++ m
  end.

Definition user_agent (env : environ) : string :=
  "GitHub Actions Release Bot for Today RSS Reader by u/" ++ opt_str (env "REDDIT_USERNAME").

Definition run_closed (svc : service) (env : environ) : nat * world :=
  if negb (credentials_present env) then (1, mkWorld [missing_msg1; missing_msg2] [])
  else
    let cid := opt_str (env "REDDIT_CLIENT_ID") in
    let csec := opt_str (env "REDDIT_CLIENT_SECRET") in
    let user := opt_str (env "REDDIT_USERNAME") in
    let pw := opt_str (env "REDDIT_PASSWORD") in
    let r1 := reddit_init svc cid csec user pw (user_agent env) in
    let c1 := RedditInit cid csec user pw (user_agent env) r1 in
    match r1 with
    | Some e => (1, mkWorld [handler_line e] [c1])
    | None =>
        let t := post_title_of (release_tag env) (release_name env) in
        let b := post_body_of (release_body env) (release_url env) in
        let r2 := subreddit_submit svc "TodayRSS" t b in
        let c2 := Submit "TodayRSS" t b r2 in
        match r2 with
        | inl e => (1, mkWorld [handler_line e] [c1; c2])
        | inr sub =>
            let r3 := submission_permalink svc sub in
            let c3 := Permalink sub r3 in
            match r3 with
            | inl e =>
                (1, mkWorld ["✅ Successfully posted to r/TodayRSS!";
                             "📝 Post title: " ++ t; handler_line e] [c1; c2; c3])
            | inr p =>
                (0, mkWorld ["✅ Successfully posted to r/TodayRSS!";
                             "📝 Post title: " ++ t;
                             "🔗 Post URL: https://reddit.com" ++ p] [c1; c2; c3])
            end
        end
    end.

Lemma run_eq (svc : service) (env : environ) : run svc env = run_closed svc env.
Proof.
  unfold run, run_closed, main, release_tag, release_name, release_body,
    release_url, credentials_present, user_agent.
  destruct (read_release_info env) as [[[t n] b] u].
  unfold bind, ret, try_except, praw_Reddit, submit, read_permalink, print,
    sys_exit, raise, record_call.
  destruct (all_truthy _); simpl; [|reflexivity].
  destruct (reddit_init _ _ _ _ _ _) as [[m|m]|]; simpl; [reflexivity|reflexivity|].
  destruct (subreddit_submit _ _ _ _) as [[m|m]|sub]; simpl; [reflexivity|reflexivity|].
  destruct (submission_permalink _ _) as [[m|m]|p]; reflexivity.
Qed.

(** ** String facts *)

Definition contains (s sub : string) : Prop := exists p q, s = p ++ sub ++ q.
Definition ends_with (s suf : string) : Prop := exists p, s = p ++ suf.

Lemma sappend_assoc (a b c : string) : (a ++ b) ++ c = a ++ (b ++ c).
Proof. induction a as [|x a IH]; simpl; [reflexivity|now rewrite IH]. Qed.

Lemma list_ascii_of_string_app (a b : string) :
  list_ascii_of_string (a ++ b) = (list_ascii_of_string a ++ list_ascii_of_string b)%list.
Proof. induction a as [|x a IH]; simpl; [reflexivity|now rewrite IH]. Qed.

(** The combined title ends in [")"], the fallback title in ["!"]. *)
Lemma title_formats_differ (name tag : string) :
  name ++ " (" ++ tag ++ ")" <> "Today RSS Reader " ++ tag ++ " Released!".
Proof.
  intro H. apply (f_equal list_ascii_of_string) in H.
  rewrite !list_ascii_of_string_app in H.
  apply (f_equal (@rev ascii)) in H.
  rewrite !rev_app_distr in H. simpl in H.
  inversion H.
Qed.

(** ** Credentials *)

Definition credential_vars : list string :=
  ["REDDIT_CLIENT_ID"; "REDDIT_CLIENT_SECRET"; "REDDIT_USERNAME"; "REDDIT_PASSWORD"].

(** Some required credential is unset or set to the empty string. *)
Definition credential_missing (env : environ) : Prop :=
  exists k, In k credential_vars /\ (env k = None \/ env k = Some "").

Lemma credential_missing_not_present (env : environ) :
  credential_missing env -> credentials_present env = false.
Proof.
  intros (k & Hin & Hk). unfold credentials_present, all_truthy.
  simpl in Hin.
  destruct Hin as [<-|[<-|[<-|[<-|[]]]]];
    destruct Hk as [-> | ->]; simpl; rewrite ?andb_false_r; reflexivity.
Qed.

Definition call_failed (c : call) : bool :=
  match c with
  | RedditInit _ _ _ _ _ (Some _) => true
  | Submit _ _ _ (inl _) => true
  | Permalink _ (inl _) => true
  | _ => false
  end.

Definition is_submit (c : call) : bool :=
  match c with Submit _ _ _ _ => true | _ => false end.

Definition empty_env : environ := env_of [].
Definition creds_env : environ := env_of creds.

(** Case analysis on the five outcomes of [run_closed]. *)
Ltac run_cases :=
  rewrite run_eq; unfold run_closed;
  destruct (credentials_present _); simpl;
  [destruct (reddit_init _ _ _ _ _ _); simpl;
   [|destruct (subreddit_submit _ _ _ _); simpl;
     [|destruct (submission_permalink _ _) eqn:Hperm; simpl]]|].

(** Split a membership in a concrete list into one equation per element. *)
Ltac in_list H :=
  lazymatch type of H with
  | In _ [] => destruct H
  | False => destruct H
  | In _ (_ :: _) => destruct H as [H|H]; [|in_list H]
  | _ = _ \/ _ => destruct H as [H|H]; [|in_list H]
  | _ => idtac
  end.

(** Every submission of a run carries the derived title and body. *)
Lemma run_submit_args (svc : service) (env : environ) sr t b a :
  In (Submit sr t b a) (calls (snd (run svc env))) ->
  sr = "TodayRSS" /\ t = post_title_of (release_tag env) (release_name env) /\
  b = post_body_of (release_body env) (release_url env).
Proof.
  run_cases; intros H; in_list H; try discriminate; inversion H; auto.
Qed.

Lemma body_empty_url_link (body : string) :
  contains (post_body_of body "") "[View Release on GitHub]()".
Proof.
  exists (body ++ nl ++ nl), (nl ++ nl ++ "---" ++ nl ++ footer).
  unfold post_body_of. rewrite !sappend_assoc. reflexivity.
Qed.

(** A trace of at most three calls in which a failed call is the last. *)
Ltac no_call_after_failure :=
  let pre := fresh "pre" in let c := fresh "c" in let post := fresh "post" in
  let H := fresh "H" in let Hf := fresh "Hf" in
  intros pre c post H Hf;
  destruct pre as [|? [|? [|? pre]]]; simpl in H; inversion H; subst;
  simpl in Hf; try discriminate; try reflexivity;
  destruct pre; discriminate.

(** * Claims *)

(** C1: when some credential is unset or empty, the run exits with a
    non-zero status and makes no call to the service. *)
Theorem missing_credentials_no_call (svc : service) (env : environ) :
  credential_missing env ->
  fst (run svc env) <> 0 /\ calls (snd (run svc env)) = [].
Proof.
  intros Hm. rewrite run_eq. unfold run_closed.
  rewrite (credential_missing_not_present env Hm). simpl. split; [discriminate|reflexivity].
Qed.

Lemma missing_credentials_no_call_witness :
  credential_missing empty_env /\
  fst (run ok_service empty_env) <> 0 /\ calls (snd (run ok_service empty_env)) = [].
Proof.
  assert (H : credential_missing empty_env).
  { exists "REDDIT_CLIENT_ID". split; [simpl; auto|left; reflexivity]. }
  split; [exact H|]. apply (missing_credentials_no_call ok_service empty_env H).
Defined.

(** C2 (counterexample): with [RELEASE_NAME=""] and [RELEASE_TAG="v1.2.0"]
    the name differs from the tag, yet the title is not the combined
    format: the fallback format is used. *)
Lemma title_empty_name_not_combined :
  "" <> "v1.2.0" /\
  post_title_of "v1.2.0" "" <> "" ++ " (" ++ "v1.2.0" ++ ")" /\
  post_title_of "v1.2.0" "" = "Today RSS Reader " ++ "v1.2.0" ++ " Released!".
Proof. split; [discriminate|split; [vm_compute; discriminate|reflexivity]]. Qed.

(** C2 (amended): the title is the fallback format exactly when
    [release_name] is empty or equals [release_tag]; otherwise it is the
    combined format. *)
Theorem title_fallback_iff (tag name : string) :
  (post_title_of tag name = "Today RSS Reader " ++ tag ++ " Released!"
     <-> name = "" \/ name = tag) /\
  (name <> "" -> name <> tag -> post_title_of tag name = name ++ " (" ++ tag ++ ")").
Proof.
  unfold post_title_of, str_truthy.
  destruct (String.eqb_spec name "") as [->|Hne]; simpl.
  - split; [split; [auto|reflexivity]|intros H; congruence].
  - destruct (String.eqb_spec name tag) as [->|Hnt]; simpl.
    + split; [split; [auto|reflexivity]|intros _ H; congruence].
    + split; [|reflexivity]. split.
      * intros H. exfalso. exact (title_formats_differ name tag H).
      * intros [H|H]; congruence.
Qed.

Lemma title_fallback_iff_witness :
  ("Spring Update" <> "" /\ "Spring Update" <> "v1.2.0") /\
  post_title_of "v1.2.0" "Spring Update" = "Spring Update" ++ " (" ++ "v1.2.0" ++ ")".
Proof.
  assert (H1 : "Spring Update" <> "") by discriminate.
  assert (H2 : "Spring Update" <> "v1.2.0") by discriminate.
  split; [split; assumption|].
  exact (proj2 (title_fallback_iff "v1.2.0" "Spring Update") H1 H2).
Defined.

(** C3: the title is ["{release_name} ({release_tag})"] when [release_name]
    is non-empty and differs from [release_tag], and
    ["Today RSS Reader {release_tag} Released!"] otherwise; the two
    scenarios of the spec. *)
Theorem title_derivation (tag name : string) :
  (name <> "" -> name <> tag -> post_title_of tag name = name ++ " (" ++ tag ++ ")") /\
  (~ (name <> "" /\ name <> tag) ->
     post_title_of tag name = "Today RSS Reader " ++ tag ++ " Released!") /\
  post_title_of "v1.2.0" "Spring Update" = "Spring Update (v1.2.0)" /\
  post_title_of "v1.2.0" "v1.2.0" = "Today RSS Reader v1.2.0 Released!".
Proof.
  unfold post_title_of, str_truthy.
  split; [|split; [|split; reflexivity]].
  - intros H1 H2. apply String.eqb_neq in H1, H2. now rewrite H1, H2.
  - intros H.
    destruct (String.eqb_spec name "") as [->|Hne]; simpl; [reflexivity|].
    destruct (String.eqb_spec name tag) as [->|Hnt]; simpl; [reflexivity|].
    exfalso. exact (H (conj Hne Hnt)).
Qed.

Lemma title_derivation_witness :
  ~ ("" <> "" /\ "" <> "v1.2.0") /\
  post_title_of "v1.2.0" "" = "Today RSS Reader " ++ "v1.2.0" ++ " Released!".
Proof.
  assert (H : ~ ("" <> "" /\ "" <> "v1.2.0")) by (intros [H _]; apply H; reflexivity).
  split; [exact H|].
  exact (proj1 (proj2 (title_derivation "v1.2.0" "")) H).
Defined.

(** C4: the body is [release_body], the link line to [release_url], the
    separator and the footer, in this order; so it ends with the footer
    and contains [release_url]. *)
Theorem body_layout (body url : string) :
  post_body_of body url =
    body ++ (nl ++ nl ++ "[View Release on GitHub](") ++ url ++
    (")" ++ nl ++ nl) ++ ("---" ++ nl) ++ footer /\
  ends_with (post_body_of body url) footer /\
  contains (post_body_of body url) url.
Proof.
  assert (E : post_body_of body url =
    body ++ (nl ++ nl ++ "[View Release on GitHub](") ++ url ++
    (")" ++ nl ++ nl) ++ ("---" ++ nl) ++ footer).
  { unfold post_body_of. rewrite !sappend_assoc. reflexivity. }
  split; [exact E|split].
  - exists (body ++ (nl ++ nl ++ "[View Release on GitHub](") ++ url ++
            (")" ++ nl ++ nl) ++ ("---" ++ nl)).
    rewrite E, !sappend_assoc. reflexivity.
  - exists (body ++ (nl ++ nl ++ "[View Release on GitHub](")),
           ((")" ++ nl ++ nl) ++ ("---" ++ nl) ++ footer).
    rewrite E, !sappend_assoc. reflexivity.
Qed.

(** A service on which posting succeeds but fetching the new post's
    permalink fails. *)
Definition permalink_failing_service : service :=
  {| reddit_init := fun _ _ _ _ _ => None;
     subreddit_submit := fun _ _ _ => inr "abc";
     submission_permalink := fun _ => inl (OtherError "received 503 HTTP response") |}.

(** C5 (counterexample): the submission succeeds, but reading
    [submission.permalink] (line 58, inside the [try]) raises, so the run
    exits with status 1. *)
Lemma exit_status_after_permalink_failure :
  (exists t b s,
     In (Submit "TodayRSS" t b (inr s)) (calls (snd (run permalink_failing_service creds_env)))) /\
  fst (run permalink_failing_service creds_env) = 1.
Proof.
  split; [|reflexivity].
  do 3 eexists. vm_compute. right. left. reflexivity.
Qed.

(** C5 (amended): the exit status is [0] exactly when the submission
    succeeded and the permalink of the new post was fetched, and [1]
    otherwise; it is [1] for missing credentials and after any failed
    service call; at most one submission is made, and a failed service call
    is the last call of the run (no retry). *)
Theorem exit_status_spec (svc : service) (env : environ) :
  (fst (run svc env) = 0 <->
     exists t b s p, In (Submit "TodayRSS" t b (inr s)) (calls (snd (run svc env))) /\
                     In (Permalink s (inr p)) (calls (snd (run svc env)))) /\
  (fst (run svc env) <> 0 -> fst (run svc env) = 1) /\
  (credentials_present env = false -> fst (run svc env) = 1) /\
  (forall c, In c (calls (snd (run svc env))) -> call_failed c = true ->
     fst (run svc env) = 1) /\
  (forall pre c post, calls (snd (run svc env)) = (pre ++ c :: post)%list ->
     call_failed c = true -> post = []) /\
  length (filter is_submit (calls (snd (run svc env)))) <= 1.
Proof.
  run_cases.
  (* every outcome: split the six conjuncts and close them *)
  all: split; [split|split; [|split; [|split; [|split]]]].
  all: try (simpl; lia).
  all: try (intros; reflexivity).
  all: try (intros H; contradiction).
  all: try discriminate.
  all: try no_call_after_failure.
  all: try (intros (? & ? & ? & ? & H1 & H2); in_list H1; in_list H2;
            try discriminate; try contradiction; inversion H1; inversion H2;
            subst; congruence).
  all: try (intros c Hc; in_list Hc; subst; simpl; discriminate).
  all: try (intros _; do 4 eexists; split; [right; left; reflexivity|
                                            right; right; left; reflexivity]).
Qed.

(** C6: with a credential missing, the run exits non-zero after printing a
    line that names the four required variables. *)
Theorem missing_credentials_diagnostic (svc : service) (env : environ) :
  credential_missing env ->
  fst (run svc env) <> 0 /\
  exists line, In line (stdout (snd (run svc env))) /\
    contains line "REDDIT_CLIENT_ID" /\ contains line "REDDIT_CLIENT_SECRET" /\
    contains line "REDDIT_USERNAME" /\ contains line "REDDIT_PASSWORD".
Proof.
  intros Hm. rewrite run_eq. unfold run_closed.
  rewrite (credential_missing_not_present env Hm). simpl.
  split; [discriminate|].
  exists missing_msg2. split; [auto|].
  repeat split.
  - exists "Please ensure ",
      ", REDDIT_CLIENT_SECRET, REDDIT_USERNAME, and REDDIT_PASSWORD are set".
    reflexivity.
  - exists "Please ensure REDDIT_CLIENT_ID, ",
      ", REDDIT_USERNAME, and REDDIT_PASSWORD are set".
    reflexivity.
  - exists "Please ensure REDDIT_CLIENT_ID, REDDIT_CLIENT_SECRET, ",
      ", and REDDIT_PASSWORD are set".
    reflexivity.
  - exists "Please ensure REDDIT_CLIENT_ID, REDDIT_CLIENT_SECRET, REDDIT_USERNAME, and ",
      " are set".
    reflexivity.
Qed.

Lemma missing_credentials_diagnostic_witness :
  credential_missing empty_env /\
  fst (run ok_service empty_env) <> 0 /\
  exists line, In line (stdout (snd (run ok_service empty_env))) /\
    contains line "REDDIT_CLIENT_ID" /\ contains line "REDDIT_CLIENT_SECRET" /\
    contains line "REDDIT_USERNAME" /\ contains line "REDDIT_PASSWORD".
Proof.
  assert (H : credential_missing empty_env).
  { exists "REDDIT_PASSWORD". split; [simpl; auto|left; reflexivity]. }
  split; [exact H|]. apply (missing_credentials_diagnostic ok_service empty_env H).
Defined.

(** C7: unset release variables take their defaults. *)
Theorem release_defaults (env : environ) :
  (env "RELEASE_TAG" = None -> release_tag env = "Unknown Version") /\
  (env "RELEASE_NAME" = None -> release_name env = "New Release") /\
  (env "RELEASE_BODY" = None -> release_body env = "") /\
  (env "RELEASE_URL" = None -> release_url env = "").
Proof.
  unfold release_tag, release_name, release_body, release_url,
    read_release_info, environ_get_default.
  repeat split; intros H; rewrite H; reflexivity.
Qed.

Lemma release_defaults_witness :
  empty_env "RELEASE_TAG" = None /\ release_tag empty_env = "Unknown Version".
Proof.
  assert (H : empty_env "RELEASE_TAG" = None) by reflexivity.
  split; [exact H|]. exact (proj1 (release_defaults empty_env) H).
Defined.

(** C8: with an empty [release_url] the link line is still emitted, with
    an empty link target, in the derived body and in any submission. *)
Theorem empty_url_link_line (svc : service) (env : environ) :
  release_url env = "" ->
  contains (post_body_of (release_body env) (release_url env)) "[View Release on GitHub]()" /\
  forall sr t b a, In (Submit sr t b a) (calls (snd (run svc env))) ->
    contains b "[View Release on GitHub]()".
Proof.
  intros Hu. rewrite Hu. split; [apply body_empty_url_link|].
  intros sr t b a Hin. destruct (run_submit_args svc env sr t b a Hin) as (_ & _ & ->).
  rewrite Hu. apply body_empty_url_link.
Qed.

Definition release_env : environ := env_of (creds ++ [("RELEASE_TAG", "v1.2.0")]).

Lemma empty_url_link_line_witness :
  release_url release_env = "" /\
  contains (post_body_of (release_body release_env) (release_url release_env))
    "[View Release on GitHub]()" /\
  forall sr t b a, In (Submit sr t b a) (calls (snd (run ok_service release_env))) ->
    contains b "[View Release on GitHub]()".
Proof.
  assert (H : release_url release_env = "") by reflexivity.
  split; [exact H|]. exact (empty_url_link_line ok_service release_env H).
Defined.

(** C9: runs with a missing credential have the same output and exit
    status, whatever the release variables and the service. *)
Theorem missing_credentials_outcome_fixed (svc1 svc2 : service) (env1 env2 : environ) :
  credential_missing env1 -> credential_missing env2 ->
  run svc1 env1 = run svc2 env2.
Proof.
  intros H1 H2. rewrite !run_eq. unfold run_closed.
  rewrite (credential_missing_not_present env1 H1),
    (credential_missing_not_present env2 H2).
  reflexivity.
Qed.

Definition release_env_no_password : environ :=
  env_of [("REDDIT_CLIENT_ID", "id"); ("RELEASE_TAG", "v1.2.0");
          ("RELEASE_NAME", "Spring Update"); ("RELEASE_BODY", "Notes");
          ("RELEASE_URL", "https://github.com/whyisjake/today/releases/tag/v1.2.0")].

Lemma missing_credentials_outcome_fixed_witness :
  credential_missing empty_env /\ credential_missing release_env_no_password /\
  run ok_service empty_env = run ok_service release_env_no_password.
Proof.
  assert (H1 : credential_missing empty_env).
  { exists "REDDIT_USERNAME". split; [simpl; auto|left; reflexivity]. }
  assert (H2 : credential_missing release_env_no_password).
  { exists "REDDIT_PASSWORD". split; [simpl; auto|left; reflexivity]. }
  split; [exact H1|split; [exact H2|]].
  exact (missing_credentials_outcome_fixed ok_service ok_service _ _ H1 H2).
Defined.

(** C10: with neither [RELEASE_NAME] nor [RELEASE_TAG] set, the title is
    ["New Release (Unknown Version)"], in the derivation and in any
    submission. *)
Theorem default_title_combined (svc : service) (env : environ) :
  env "RELEASE_NAME" = None -> env "RELEASE_TAG" = None ->
  post_title_of (release_tag env) (release_name env) = "New Release (Unknown Version)" /\
  forall sr t b a, In (Submit sr t b a) (calls (snd (run svc env))) ->
    t = "New Release (Unknown Version)".
Proof.
  intros Hn Ht.
  assert (E : post_title_of (release_tag env) (release_name env)
              = "New Release (Unknown Version)").
  { unfold release_tag, release_name, read_release_info, environ_get_default.
    rewrite Hn, Ht. reflexivity. }
  split; [exact E|].
  intros sr t b a Hin. destruct (run_submit_args svc env sr t b a Hin) as (_ & -> & _).
  exact E.
Qed.

Lemma default_title_combined_witness :
  creds_env "RELEASE_NAME" = None /\ creds_env "RELEASE_TAG" = None /\
  In (Submit "TodayRSS" "New Release (Unknown Version)" (post_body_of "" "")
        (inr "abc"))
     (calls (snd (run ok_service creds_env))) /\
  post_title_of (release_tag creds_env) (release_name creds_env)
    = "New Release (Unknown Version)".
Proof.
  assert (Hn : creds_env "RELEASE_NAME" = None) by reflexivity.
  assert (Ht : creds_env "RELEASE_TAG" = None) by reflexivity.
  split; [exact Hn|split; [exact Ht|split]].
  - vm_compute. right. left. reflexivity.
  - exact (proj1 (default_title_combined ok_service creds_env Hn Ht)).
Defined.

(** * Further properties of [main] *)

Definition is_init (c : call) : bool :=
  match c with RedditInit _ _ _ _ _ _ => true | _ => false end.

(** Lines 23 and 30-36: with all four credentials set and non-empty, the
    first service call is the construction of the client with exactly those
    values and a user agent naming the user, and it is the only one. *)
Theorem client_built_from_credentials (svc : service) (env : environ)
    (cid csec user pw : string) :
  env "REDDIT_CLIENT_ID" = Some cid -> env "REDDIT_CLIENT_SECRET" = Some csec ->
  env "REDDIT_USERNAME" = Some user -> env "REDDIT_PASSWORD" = Some pw ->
  credentials_present env = true ->
  exists r rest,
    calls (snd (run svc env)) =
      RedditInit cid csec user pw
        ("GitHub Actions Release Bot for Today RSS Reader by u/" ++ user) r :: rest /\
    forallb (fun c => negb (is_init c)) rest = true.
Proof.
  intros H1 H2 H3 H4 Hp. rewrite run_eq. unfold run_closed, user_agent.
  rewrite Hp. simpl. rewrite H1, H2, H3, H4. simpl.
  destruct (reddit_init _ _ _ _ _ _) as [e|]; simpl.
  - eexists; exists []; split; reflexivity.
  - destruct (subreddit_submit _ _ _ _); simpl;
      [|destruct (submission_permalink _ _); simpl];
      eexists; eexists; split; reflexivity.
Qed.

Lemma client_built_from_credentials_witness :
  exists r rest,
    calls (snd (run ok_service creds_env)) =
      RedditInit "id" "sec" "bot" "pw"
        ("GitHub Actions Release Bot for Today RSS Reader by u/" ++ "bot") r :: rest /\
    forallb (fun c => negb (is_init c)) rest = true.
Proof.
  apply (client_built_from_credentials ok_service creds_env "id" "sec" "bot" "pw");
    reflexivity.
Defined.

(** Lines 30-36 and 60-65: when constructing the client fails, nothing is
    submitted, the only line printed is the handler's message carrying the
    error text, and the exit status is 1. *)
Theorem init_failure_outcome (svc : service) (env : environ) a b c d u e :
  In (RedditInit a b c d u (Some e)) (calls (snd (run svc env))) ->
  run svc env = (1, mkWorld [handler_line e] [RedditInit a b c d u (Some e)]).
Proof.
  run_cases; intros H; in_list H; try discriminate.
  inversion H; subst. reflexivity.
Qed.

Definition failing_init_service : service :=
  {| reddit_init := fun _ _ _ _ _ => Some (OtherError "invalid_grant error processing request");
     subreddit_submit := fun _ _ _ => inr "abc";
     submission_permalink := fun _ => inr "/r/TodayRSS/comments/abc/" |}.

Lemma init_failure_outcome_witness :
  run failing_init_service creds_env =
    (1, mkWorld [handler_line (OtherError "invalid_grant error processing request")]
          [RedditInit "id" "sec" "bot" "pw" (user_agent creds_env)
             (Some (OtherError "invalid_grant error processing request"))]).
Proof.
  apply (init_failure_outcome failing_init_service creds_env "id" "sec" "bot" "pw"
           (user_agent creds_env)).
  vm_compute. left. reflexivity.
Defined.

(** Lines 51-54 and 60-65: when the submission raises, the only line printed
    is the handler's message ("Reddit API error" for a praw exception,
    "Unexpected error" otherwise) carrying the error text, and the exit
    status is 1. *)
Theorem submit_failure_outcome (svc : service) (env : environ) sr t b e :
  In (Submit sr t b (inl e)) (calls (snd (run svc env))) ->
  fst (run svc env) = 1 /\ stdout (snd (run svc env)) = [handler_line e].
Proof.
  run_cases; intros H; in_list H; try discriminate.
  inversion H; subst. auto.
Qed.

Definition rate_limited_service : service :=
  {| reddit_init := fun _ _ _ _ _ => None;
     subreddit_submit := fun _ _ _ => inl (PRAWError "RATELIMIT: try again in 9 minutes");
     submission_permalink := fun _ => inr "/r/TodayRSS/comments/abc/" |}.

Lemma submit_failure_outcome_witness :
  fst (run rate_limited_service creds_env) = 1 /\
  stdout (snd (run rate_limited_service creds_env)) =
    [handler_line (PRAWError "RATELIMIT: try again in 9 minutes")].
Proof.
  apply (submit_failure_outcome rate_limited_service creds_env "TodayRSS"
           "New Release (Unknown Version)" (post_body_of "" "")).
  vm_compute. right. left. reflexivity.
Defined.

(** Lines 51-58: when the submission succeeds and the permalink of the new
    post is fetched, the run prints exactly the confirmation, the submitted
    title and the post URL built from the permalink, and exits with
    status 0. *)
Theorem submit_success_outcome (svc : service) (env : environ) sr t b sub p :
  In (Submit sr t b (inr sub)) (calls (snd (run svc env))) ->
  In (Permalink sub (inr p)) (calls (snd (run svc env))) ->
  fst (run svc env) = 0 /\
  stdout (snd (run svc env)) =
    ["✅ Successfully posted to r/TodayRSS!"; "📝 Post title: " ++ t;
     "🔗 Post URL: https://reddit.com" ++ p].
Proof.
  run_cases; intros H1 H2; in_list H1; in_list H2; try discriminate.
  all: inversion H1; inversion H2; subst; try discriminate.
  inversion H2; subst. auto.
Qed.

Lemma submit_success_outcome_witness :
  fst (run ok_service creds_env) = 0 /\
  stdout (snd (run ok_service creds_env)) =
    ["✅ Successfully posted to r/TodayRSS!";
     "📝 Post title: " ++ "New Release (Unknown Version)";
     "🔗 Post URL: https://reddit.com" ++ "/r/TodayRSS/comments/abc/"].
Proof.
  apply (submit_success_outcome ok_service creds_env "TodayRSS"
           "New Release (Unknown Version)" (post_body_of "" "") "abc").
  - vm_compute. right. left. reflexivity.
  - vm_compute. right. right. left. reflexivity.
Defined.

(** Lines 51-65: when the submission succeeds but fetching
    [submission.permalink] raises, the post exists, yet the run prints the
    two first success lines followed by the handler's message, and exits
    with status 1. *)
Theorem permalink_failure_outcome (svc : service) (env : environ) sr t b sub e :
  In (Submit sr t b (inr sub)) (calls (snd (run svc env))) ->
  In (Permalink sub (inl e)) (calls (snd (run svc env))) ->
  fst (run svc env) = 1 /\
  stdout (snd (run svc env)) =
    ["✅ Successfully posted to r/TodayRSS!"; "📝 Post title: " ++ t; handler_line e].
Proof.
  run_cases; intros H1 H2; in_list H1; in_list H2; try discriminate.
  all: inversion H1; inversion H2; subst; try discriminate.
  inversion H2; subst. auto.
Qed.

Lemma permalink_failure_outcome_witness :
  fst (run permalink_failing_service creds_env) = 1 /\
  stdout (snd (run permalink_failing_service creds_env)) =
    ["✅ Successfully posted to r/TodayRSS!";
     "📝 Post title: " ++ "New Release (Unknown Version)";
     handler_line (OtherError "received 503 HTTP response")].
Proof.
  apply (permalink_failure_outcome permalink_failing_service creds_env "TodayRSS"
           "New Release (Unknown Version)" (post_body_of "" "") "abc").
  - vm_compute. right. left. reflexivity.
  - vm_compute. right. right. left. reflexivity.
Defined.

(** Lines 30-58: a submission goes to r/TodayRSS, only after the client was
    constructed successfully; the permalink of the new post is fetched
    exactly when the submission succeeded, and no other call is made. *)
Theorem submit_after_successful_init (svc : service) (env : environ) sr t b a :
  In (Submit sr t b a) (calls (snd (run svc env))) ->
  sr = "TodayRSS" /\
  exists cid csec user pw agent,
    calls (snd (run svc env)) =
      ([RedditInit cid csec user pw agent None; Submit sr t b a] ++
       match a with
       | inl _ => []
       | inr sub => [Permalink sub (submission_permalink svc sub)]
       end)%list.
Proof.
  run_cases; intros H; in_list H; try discriminate.
  all: inversion H; subst; try rewrite Hperm;
    (split; [reflexivity|do 5 eexists; reflexivity]).
Qed.

Lemma submit_after_successful_init_witness :
  "TodayRSS" = "TodayRSS" /\
  exists cid csec user pw agent,
    calls (snd (run ok_service creds_env)) =
      [RedditInit cid csec user pw agent None;
       Submit "TodayRSS" "New Release (Unknown Version)" (post_body_of "" "") (inr "abc");
       Permalink "abc" (inr "/r/TodayRSS/comments/abc/")].
Proof.
  apply (submit_after_successful_init ok_service creds_env).
  vm_compute. right. left. reflexivity.
Defined.

(** Lines 23-26: with a credential missing, the run prints exactly the two
    error lines and nothing else. *)
Theorem missing_credentials_output (svc : service) (env : environ) :
  credentials_present env = false ->
  stdout (snd (run svc env)) = [missing_msg1; missing_msg2].
Proof.
  intros Hp. rewrite run_eq. unfold run_closed. rewrite Hp. reflexivity.
Qed.

Lemma missing_credentials_output_witness :
  credentials_present empty_env = false /\
  stdout (snd (run ok_service empty_env)) = [missing_msg1; missing_msg2].
Proof.
  assert (H : credentials_present empty_env = false) by reflexivity.
  split; [exact H|]. exact (missing_credentials_output ok_service empty_env H).
Defined.

(** Lines 18 and 39-41: [RELEASE_NAME] set to the empty string is not
    replaced by its default; the submitted title is then the fallback
    format, whatever the tag. *)
Theorem empty_release_name_fallback (svc : service) (env : environ) :
  env "RELEASE_NAME" = Some "" ->
  forall sr t b a, In (Submit sr t b a) (calls (snd (run svc env))) ->
    t = "Today RSS Reader " ++ release_tag env ++ " Released!".
Proof.
  intros Hn sr t b a Hin.
  destruct (run_submit_args svc env sr t b a Hin) as (_ & -> & _).
  assert (E : release_name env = "")
    by (unfold release_name, read_release_info, environ_get_default; now rewrite Hn).
  rewrite E. reflexivity.
Qed.

Definition empty_name_env : environ :=
  env_of (creds ++ [("RELEASE_TAG", "v1.2.0"); ("RELEASE_NAME", "")]).

Lemma empty_release_name_fallback_witness :
  empty_name_env "RELEASE_NAME" = Some "" /\
  forall sr t b a, In (Submit sr t b a) (calls (snd (run ok_service empty_name_env))) ->
    t = "Today RSS Reader " ++ release_tag empty_name_env ++ " Released!".
Proof.
  assert (H : empty_name_env "RELEASE_NAME" = Some "") by reflexivity.
  split; [exact H|]. exact (empty_release_name_fallback ok_service empty_name_env H).
Defined.

(** Lines 39-41: the derived title is never empty. *)
Theorem title_nonempty (tag name : string) : post_title_of tag name <> "".
Proof.
  unfold post_title_of, str_truthy.
  destruct (String.eqb_spec name "") as [->|Hne]; simpl; [discriminate|].
  destruct (String.eqb name tag); simpl; [discriminate|].
  destruct name; [contradiction|discriminate].
Qed.
